(** * The state controller of the blog article generator (src/App.tsx)

    A shallow embedding of the [App] component's state and of its event
    handlers.  React state is a record; a handler is a function from the
    state its closure captured to the list of operations it performs, in
    program order: the [setX] calls it queues and the calls it makes to the
    outside world (the generation service, the console, the window).  The
    queued updates are then applied in order, as React does. *)

From Stdlib Require Import NArith DecimalString DecimalPos DecimalN String Ascii.
From stdpp Require Import base list.

(** ** JavaScript strings *)

(** A JavaScript string is a sequence of UTF-16 code units. *)
Definition jsstring := list N.

(** The JavaScript string of an ASCII literal of the source. *)
Definition js (s : string) : jsstring :=
  map N_of_ascii (list_ascii_of_string s).
Arguments js _%_string.

(** [WhiteSpace] and [LineTerminator] code points of ECMAScript, the ones
    [String.prototype.trim] strips. *)
Definition isWhiteSpace (c : N) : bool :=
  (  (c =? 0x0009) || (c =? 0x000A) || (c =? 0x000B) || (c =? 0x000C)
  || (c =? 0x000D) || (c =? 0x0020) || (c =? 0x00A0) || (c =? 0x1680)
  || ((0x2000 <=? c) && (c <=? 0x200A))
  || (c =? 0x2028) || (c =? 0x2029) || (c =? 0x202F) || (c =? 0x205F)
  || (c =? 0x3000) || (c =? 0xFEFF))%N.

Fixpoint trimStart (s : jsstring) : jsstring :=
  match s with
  | c :: s' => if isWhiteSpace c then trimStart s' else s
  | [] => []
  end.

Definition trimEnd (s : jsstring) : jsstring :=
  reverse (trimStart (reverse s)).

(** [s.trim()] *)
Definition trim (s : jsstring) : jsstring := trimEnd (trimStart s).

(** Truthiness of a string value: every string but the empty one. *)
Definition truthy (s : jsstring) : bool :=
  match s with [] => false | _ :: _ => true end.

(** [n.toString()] of a non-negative integer. *)
Definition toString (n : N) : jsstring :=
  js (NilZero.string_of_uint (N.to_uint n)).

(** ** Data model *)

(** The option types of ./types are unions of string literals
    ([useState<WordCount>('500')]); at run time they are strings. *)
Definition WordCount := jsstring.
Definition Language := jsstring.
Definition Tone := jsstring.

Inductive View :=
| VMain | VHistory | VAbout | VContact | VDisclaimer | VPrivacy | VTerms.

#[global] Instance View_eq_dec : EqDecision View.
Proof. solve_decision. Defined.

(** Modelled from the spec: the [Article] type of ./types is not part of the
    sources at hand; its fields are the ones the data model lists,
    { id, createdAt, topic, wordCount, language, tone, content }. *)
Module Article.
Record t := mk {
  id : jsstring;
  createdAt : jsstring;
  topic : jsstring;
  wordCount : WordCount;
  language : Language;
  tone : Tone;
  content : jsstring
}.
End Article.

(** Modelled from the spec: what [generateBlogArticle] resolves to, an
    article without the two fields [handleGenerateArticle] adds. *)
Module ArticleData.
Record t := mk {
  topic : jsstring;
  wordCount : WordCount;
  language : Language;
  tone : Tone;
  content : jsstring
}.
End ArticleData.

(** [{ ...articleData, id: id, createdAt: createdAt }] *)
Definition spread (articleData : ArticleData.t) (id createdAt : jsstring)
  : Article.t :=
  {| Article.id := id;
     Article.createdAt := createdAt;
     Article.topic := ArticleData.topic articleData;
     Article.wordCount := ArticleData.wordCount articleData;
     Article.language := ArticleData.language articleData;
     Article.tone := ArticleData.tone articleData;
     Article.content := ArticleData.content articleData |}.

(** The nine [useState] cells of [App]. *)
Record AppState := mkState {
  topic : jsstring;
  wordCount : WordCount;
  language : Language;
  tone : Tone;
  generatedArticle : option Article.t;
  isLoading : bool;
  error : option jsstring;
  history : list Article.t;
  view : View
}.

(** The state of the first render. *)
Definition initial : AppState :=
  {| topic := [];
     wordCount := js "500";
     language := js "English";
     tone := js "Professional";
     generatedArticle := None;
     isLoading := false;
     error := None;
     history := [];
     view := VMain |}.

(** ** Operations a handler performs *)

Inductive Op :=
| setTopic (v : jsstring)
| setWordCount (v : WordCount)
| setLanguage (v : Language)
| setTone (v : Tone)
| setGeneratedArticle (v : option Article.t)
| setIsLoading (v : bool)
| setError (v : option jsstring)
(** [setHistory] in its updater form; [setHistory(v)] is [setHistory (const v)] *)
| setHistory (f : list Article.t → list Article.t)
| setView (v : View)
(** the request to the generation service *)
| generateBlogArticle (topic : jsstring) (wordCount : WordCount)
    (language : Language) (tone : Tone)
| console_error (msg : jsstring)
| window_scrollTo (top : N).

Definition apply_op (s : AppState) (o : Op) : AppState :=
  match o with
  | setTopic v =>
      mkState v (wordCount s) (language s) (tone s) (generatedArticle s)
        (isLoading s) (error s) (history s) (view s)
  | setWordCount v =>
      mkState (topic s) v (language s) (tone s) (generatedArticle s)
        (isLoading s) (error s) (history s) (view s)
  | setLanguage v =>
      mkState (topic s) (wordCount s) v (tone s) (generatedArticle s)
        (isLoading s) (error s) (history s) (view s)
  | setTone v =>
      mkState (topic s) (wordCount s) (language s) v (generatedArticle s)
        (isLoading s) (error s) (history s) (view s)
  | setGeneratedArticle v =>
      mkState (topic s) (wordCount s) (language s) (tone s) v
        (isLoading s) (error s) (history s) (view s)
  | setIsLoading v =>
      mkState (topic s) (wordCount s) (language s) (tone s)
        (generatedArticle s) v (error s) (history s) (view s)
  | setError v =>
      mkState (topic s) (wordCount s) (language s) (tone s)
        (generatedArticle s) (isLoading s) v (history s) (view s)
  | setHistory f =>
      mkState (topic s) (wordCount s) (language s) (tone s)
        (generatedArticle s) (isLoading s) (error s) (f (history s)) (view s)
  | setView v =>
      mkState (topic s) (wordCount s) (language s) (tone s)
        (generatedArticle s) (isLoading s) (error s) (history s) v
  | generateBlogArticle _ _ _ _ | console_error _ | window_scrollTo _ => s
  end.

(** The queued updates are applied in the order they were queued. *)
Definition run (ops : list Op) (s : AppState) : AppState :=
  foldl apply_op s ops.

(** The requests to the generation service among the operations. *)
Definition requests (ops : list Op) : list (jsstring * WordCount * Language * Tone) :=
  omap (λ o, match o with
             | generateBlogArticle t w l n => Some (t, w, l, n)
             | _ => None
             end) ops.

(** What the operations wrote to the console. *)
Definition logged (ops : list Op) : list jsstring :=
  omap (λ o, match o with console_error m => Some m | _ => None end) ops.

(** ** The outside world *)

(** What a [catch] clause can receive: an [Error] object with its message,
    or any other value. *)
Inductive Thrown :=
| ErrorObject (message : jsstring)
| OtherValue.

(** How the promise of [generateBlogArticle] settles. *)
Inductive Settled :=
| Fulfilled (articleData : ArticleData.t)
| Rejected (e : Thrown).

(** What one generation request meets: the service's answer, and the clock
    read by [Date.now()] and by [new Date().toISOString()]. *)
Record GenEnv := mkGenEnv {
  outcome : Settled;
  Date_now : N;
  toISOString : jsstring
}.

(** What [localStorage.getItem] does: it throws, or returns a string or null. *)
Inductive GetItem :=
| GetThrows (e : Thrown)
| GetReturns (v : option jsstring).

(** What [JSON.parse] does on a text: it throws, or returns the value the
    text denotes, which [setHistory] receives as an [Article[]]. *)
Inductive Parse :=
| ParseThrows (e : Thrown)
| ParseReturns (v : list Article.t).

(** Durable storage as the startup effect sees it. *)
Record Storage := mkStorage {
  getItem : GetItem;
  JSON_parse : jsstring → Parse
}.

(** ** The effects and handlers of [App] *)

(** The first [useEffect]: load the history from local storage. *)
Definition loadHistory (st : Storage) : list Op :=
  let catch :=
    [console_error (js "Failed to load history from localStorage:");
     setHistory (const [])] in
  match getItem st with
  | GetThrows _ => catch
  | GetReturns None => []
  | GetReturns (Some storedHistory) =>
      if truthy storedHistory then
        match JSON_parse st storedHistory with
        | ParseReturns v => [setHistory (const v)]
        | ParseThrows _ => catch
        end
      else []
  end.

(** [handleGenerateArticle] up to its [await]: the guard on the topic, the
    three resets and the request. *)
Definition handleGenerateArticle_request (s : AppState) : list Op :=
  if negb (truthy (trim (topic s))) then
    [setError (Some (js "Please enter a blog topic or keyword."))]
  else
    [setIsLoading true;
     setError None;
     setGeneratedArticle None;
     generateBlogArticle (topic s) (wordCount s) (language s) (tone s)].

(** [e instanceof Error ? e.message : 'An unexpected error occurred.'] *)
Definition errorMessage (e : Thrown) : jsstring :=
  match e with
  | ErrorObject message => message
  | OtherValue => js "An unexpected error occurred."
  end.

(** The article built from the service's answer. *)
Definition newArticle (env : GenEnv) (articleData : ArticleData.t) : Article.t :=
  spread articleData (toString (Date_now env)) (toISOString env).

(** [handleGenerateArticle] after its [await]: the rest of the [try] block or
    the [catch] clause, then the [finally] clause. *)
Definition handleGenerateArticle_settle (env : GenEnv) : list Op :=
  match outcome env with
  | Fulfilled articleData =>
      [setGeneratedArticle (Some (newArticle env articleData));
       setHistory (λ prevHistory,
         newArticle env articleData :: take 49 prevHistory)]
  | Rejected e =>
      [setError (Some (js "Error: " ++ errorMessage e))]
  end ++ [setIsLoading false].

(** [handleGenerateArticle], run from the click to the end with nothing else
    happening while the request is in flight. *)
Definition handleGenerateArticle (env : GenEnv) (s : AppState) : list Op :=
  if negb (truthy (trim (topic s))) then
    [setError (Some (js "Please enter a blog topic or keyword."))]
  else
    [setIsLoading true;
     setError None;
     setGeneratedArticle None;
     generateBlogArticle (topic s) (wordCount s) (language s) (tone s)]
    ++ handleGenerateArticle_settle env.

Definition handleSelectFromHistory (article : Article.t) : list Op :=
  [setGeneratedArticle (Some article); setView VMain; window_scrollTo 0].

Definition handleDeleteFromHistory (id : jsstring) : list Op :=
  [setHistory (λ prev, filter (λ item, Article.id item ≠ id) prev)].

(** [confirmed] is the answer of [window.confirm]; [view] is read from the
    state the callback closed over. *)
Definition handleClearHistory (confirmed : bool) (s : AppState) : list Op :=
  if confirmed then
    setHistory (const []) ::
    (if decide (view s = VHistory) then [] else [setGeneratedArticle None])
  else [].

Definition navigate (newView : View) : list Op :=
  [setView newView; window_scrollTo 0].

(** ** Sessions *)

(** What can happen after the first render.  A generation is two events, the
    click and the settling of its promise, so that other events can fall
    between the two. *)
Inductive Event :=
| TopicChanged (v : jsstring)
| WordCountChanged (v : WordCount)
| LanguageChanged (v : Language)
| ToneChanged (v : Tone)
| GenerateClicked
| GenerateSettled (env : GenEnv)
| ArticleSelected (article : Article.t)
| ArticleDeleted (id : jsstring)
| ClearClicked (confirmed : bool)
| Navigated (newView : View).

Definition dispatch (e : Event) (s : AppState) : list Op :=
  match e with
  | TopicChanged v => [setTopic v]
  | WordCountChanged v => [setWordCount v]
  | LanguageChanged v => [setLanguage v]
  | ToneChanged v => [setTone v]
  | GenerateClicked => handleGenerateArticle_request s
  | GenerateSettled env => handleGenerateArticle_settle env
  | ArticleSelected article => handleSelectFromHistory article
  | ArticleDeleted id => handleDeleteFromHistory id
  | ClearClicked confirmed => handleClearHistory confirmed s
  | Navigated newView => navigate newView
  end.

Definition step (s : AppState) (e : Event) : AppState := run (dispatch e s) s.

(** The state once the startup effect has run. *)
Definition startup (st : Storage) : AppState := run (loadHistory st) initial.

(** The state after startup and a sequence of events. *)
Definition session (st : Storage) (es : list Event) : AppState :=
  foldl step (startup st) es.

(** ** Predicates of the specification *)

(** A string that is empty or made of white space only. *)
Definition blank (s : jsstring) : Prop := Forall (λ c, isWhiteSpace c) s.

(** [h'] is [h] without one entry, one whose id is [id]. *)
Definition removes_one (id : jsstring) (h h' : list Article.t) : Prop :=
  ∃ before item after,
    h = before ++ item :: after ∧ Article.id item = id ∧ h' = before ++ after.

(** The array the startup effect reads from storage, when it reads one, has
    at most [n] entries. *)
Definition stored_at_most (n : nat) (st : Storage) : Prop :=
  ∀ text v,
    getItem st = GetReturns (Some text) →
    truthy text = true →
    JSON_parse st text = ParseReturns v →
    length v ≤ n.

(** The load fails: reading the key throws, or the text read is handed to
    [JSON.parse], which throws. *)
Definition load_fails (st : Storage) : Prop :=
  (∃ e, getItem st = GetThrows e)
  ∨ (∃ text e, getItem st = GetReturns (Some text)
               ∧ truthy text = true
               ∧ JSON_parse st text = ParseThrows e).

(** ** Sample data *)

Definition sample_article (id : jsstring) : Article.t :=
  Article.mk id (js "2024-05-01T10:00:00.000Z") (js "tea") (js "500")
    (js "English") (js "Professional") (js "On tea.").

Definition sample_data : ArticleData.t :=
  ArticleData.mk (js "tea") (js "500") (js "English") (js "Professional")
    (js "On tea.").

Definition sample_state (t : jsstring) (shown : option Article.t)
    (h : list Article.t) (v : View) : AppState :=
  mkState t (js "500") (js "English") (js "Professional") shown false None h v.

(** A storage whose key holds the text [text], the JSON text of the array
    [v]; any other text is refused by [JSON.parse]. *)
Definition storage_holding (text : jsstring) (v : list Article.t) : Storage :=
  mkStorage (GetReturns (Some text))
    (λ t, if decide (t = text) then ParseReturns v
          else ParseThrows (ErrorObject (js "Unexpected token"))).

(** A non-empty text that stands for a stored serialisation; what it denotes
    is what the storage's [JSON_parse] says. *)
Definition stored_text : jsstring := js "[...]".

(** A storage that holds an array of [n] articles. *)
Definition storage_of (n : nat) : Storage :=
  storage_holding stored_text
    (replicate n (sample_article (js "1714557600000"))).

(** A storage that cannot be read, and one that holds a text that is not JSON. *)
Definition storage_denied : Storage :=
  mkStorage (GetThrows (ErrorObject (js "The operation is insecure.")))
    (λ _, ParseReturns []).

Definition storage_garbled : Storage :=
  mkStorage (GetReturns (Some (js "[{")))
    (λ _, ParseThrows (ErrorObject (js "Unexpected end of JSON input"))).

(** ** The save effect *)

(** What [JSON.stringify] does on a history: it throws, or returns a text. *)
Inductive Stringify :=
| StringifyThrows (e : Thrown)
| StringifyReturns (text : jsstring).

(** Durable storage as the save effect sees it: the serialiser, and what
    [localStorage.setItem] throws, if it throws, on the text it is given. *)
Record SaveEnv := mkSaveEnv {
  JSON_stringify : list Article.t → Stringify;
  setItem : jsstring → option Thrown
}.

(** The second [useEffect]: save the history to local storage.  The result is
    the operations performed and the text written under the key, if any. *)
Definition saveHistory (w : SaveEnv) (s : AppState) : list Op * option jsstring :=
  let catch :=
    [console_error (js "Failed to save history to localStorage:")] in
  match JSON_stringify w (history s) with
  | StringifyThrows _ => (catch, None)
  | StringifyReturns text =>
      match setItem w text with
      | Some _ => (catch, None)
      | None => ([], Some text)
      end
  end.

(** What the key holds after the save effect, [before] being what it held. *)
Definition stored_after (w : SaveEnv) (s : AppState) (before : option jsstring)
  : option jsstring :=
  match (saveHistory w s).2 with
  | Some text => Some text
  | None => before
  end.

(** ** Rendering *)

(** What [renderContent] returns: the page of the view with the props it is
    given from the state.  On the main page: the four form values, the
    [disabled] prop of the button, the error banner, the loader and the
    article output, each of the last three present or not. *)
Inductive Page :=
| HistoryPage (history : list Article.t)
| AboutPage
| ContactPage
| DisclaimerPage
| PrivacyPolicyPage
| TermsPage
| MainPage (form : jsstring * WordCount * Language * Tone) (disabled : bool)
    (errorBanner : option jsstring) (loader : bool)
    (articleOutput : option Article.t).

Definition renderContent (s : AppState) : Page :=
  match view s with
  | VHistory => HistoryPage (history s)
  | VAbout => AboutPage
  | VContact => ContactPage
  | VDisclaimer => DisclaimerPage
  | VPrivacy => PrivacyPolicyPage
  | VTerms => TermsPage
  | VMain =>
      MainPage (topic s, wordCount s, language s, tone s)
        (isLoading s)
        (match error s with
         | Some message => if truthy message then Some message else None
         | None => None
         end)
        (isLoading s)
        (generatedArticle s)
  end.

(** ** Requests in flight *)

(** The generate button is on the page and not disabled. *)
Definition clickable (s : AppState) : bool :=
  match renderContent s with
  | MainPage _ disabled _ _ _ => negb disabled
  | _ => false
  end.

(** The number of requests in flight after an event, [n] being their number
    before it. *)
Definition in_flight_after (s : AppState) (n : nat) (e : Event) : nat :=
  n + length (requests (dispatch e s))
    - match e with GenerateSettled _ => 1 | _ => 0 end.

(** The state and the number of requests in flight after a sequence of
    events. *)
Fixpoint drive (s : AppState) (n : nat) (es : list Event) : AppState * nat :=
  match es with
  | [] => (s, n)
  | e :: es' => drive (step s e) (in_flight_after s n e) es'
  end.

(** A sequence of events in which the generate button is clicked only while
    it is clickable and a promise settles only if a request is in flight. *)
Fixpoint gated (s : AppState) (n : nat) (es : list Event) : Prop :=
  match es with
  | [] => True
  | e :: es' =>
      match e with
      | GenerateClicked => clickable s = true
      | GenerateSettled _ => 0 < n
      | _ => True
      end
      ∧ gated (step s e) (in_flight_after s n e) es'
  end.

(** ** What a session generates *)

(** The articles built by the fulfilled generations among the events, in the
    order of the events. *)
Definition generated (es : list Event) : list Article.t :=
  omap (λ e, match e with
             | GenerateSettled env =>
                 match outcome env with
                 | Fulfilled articleData => Some (newArticle env articleData)
                 | Rejected _ => None
                 end
             | _ => None
             end) es.

(** What [Date.now()] read at each of them. *)
Definition clocks (es : list Event) : list N :=
  omap (λ e, match e with
             | GenerateSettled env =>
                 match outcome env with
                 | Fulfilled _ => Some (Date_now env)
                 | Rejected _ => None
                 end
             | _ => None
             end) es.

(** The ids of a history, in its order. *)
Definition ids (h : list Article.t) : list jsstring := Article.id <$> h.

(** An event that can change the error and the loading flag: the two halves
    of a generation. *)
Definition generation_event (e : Event) : bool :=
  match e with
  | GenerateClicked | GenerateSettled _ => true
  | _ => false
  end.

(** An input of the form, and an event that changes the page. *)
Definition form_event (e : Event) : bool :=
  match e with
  | TopicChanged _ | WordCountChanged _ | LanguageChanged _ | ToneChanged _ => true
  | _ => false
  end.

Definition view_event (e : Event) : bool :=
  match e with
  | Navigated _ | ArticleSelected _ => true
  | _ => false
  end.

(** On the history [v], [JSON.parse], as the storage [st] has it, inverts
    [JSON.stringify], as [w] has it, and the text is not empty. *)
Definition inverts (st : Storage) (w : SaveEnv) (v : list Article.t) : Prop :=
  ∀ text,
    JSON_stringify w v = StringifyReturns text →
    truthy text = true ∧ JSON_parse st text = ParseReturns v.

(** A storage that accepts every write, with a serialiser that returns
    [text]. *)
Definition save_as (text : jsstring) : SaveEnv :=
  mkSaveEnv (λ _, StringifyReturns text) (λ _, None).

(** * Properties *)

(** ** Blank topics *)

Lemma trimStart_nil_iff s : trimStart s = [] ↔ blank s.
Proof.
  unfold blank. induction s as [|c s IH]; simpl.
  - split; [constructor | reflexivity].
  - destruct (isWhiteSpace c) eqn:Hc.
    + rewrite IH. split.
      * intros H. constructor; [by rewrite Hc | done].
      * by inversion 1.
    + split; [discriminate |].
      inversion 1 as [|? ? Hw]. by rewrite Hc in Hw.
Qed.

Lemma trimStart_blank s : blank (trimStart s) → blank s.
Proof.
  unfold blank. induction s as [|c s IH]; simpl; [done |].
  destruct (isWhiteSpace c) eqn:Hc; [| done].
  intros H. constructor; [by rewrite Hc | auto].
Qed.

Lemma trimEnd_nil_iff s : trimEnd s = [] ↔ blank s.
Proof.
  unfold trimEnd. rewrite <- (reverse_nil (A := N)) at 1.
  split.
  - intros H. apply (inj reverse), trimStart_nil_iff in H.
    unfold blank in *. by rewrite Forall_reverse in H.
  - intros H. f_equal. apply trimStart_nil_iff.
    unfold blank in *. by rewrite Forall_reverse.
Qed.

(** [!s.trim()] holds exactly of the blank strings. *)
Lemma trim_blank s : truthy (trim s) = false ↔ blank s.
Proof.
  assert (∀ t : jsstring, truthy t = false ↔ t = []) as ->
    by (intros [|? ?]; simpl; split; done).
  unfold trim. rewrite trimEnd_nil_iff. split.
  - apply trimStart_blank.
  - intros H. apply trimStart_nil_iff in H. rewrite H. constructor.
Qed.

Lemma trim_not_blank s : ¬ blank s → truthy (trim s) = true.
Proof.
  intros H. destruct (truthy (trim s)) eqn:E; [done |].
  by apply trim_blank in E.
Qed.

(** ** Reading the state after a run *)

Lemma run_app ops1 ops2 s : run (ops1 ++ ops2) s = run ops2 (run ops1 s).
Proof. apply foldl_app. Qed.

Lemma handleGenerateArticle_blank env s :
  blank (topic s) →
  handleGenerateArticle env s =
    [setError (Some (js "Please enter a blog topic or keyword."))].
Proof.
  intros H%trim_blank. unfold handleGenerateArticle. by rewrite H.
Qed.

Lemma handleGenerateArticle_not_blank env s :
  ¬ blank (topic s) →
  handleGenerateArticle env s =
    [setIsLoading true; setError None; setGeneratedArticle None;
     generateBlogArticle (topic s) (wordCount s) (language s) (tone s)]
    ++ handleGenerateArticle_settle env.
Proof.
  intros H%trim_not_blank. unfold handleGenerateArticle. by rewrite H.
Qed.

(** ** The guard on the topic *)

(** C4: for a topic that is empty or white space only, [handleGenerateArticle]
    issues no request to the generation service, sets the error to the
    "please enter a topic" message, and leaves every other cell of the state
    as it was. *)
Theorem blank_topic_is_refused env s :
  blank (topic s) →
  requests (handleGenerateArticle env s) = []
  ∧ run (handleGenerateArticle env s) s =
      mkState (topic s) (wordCount s) (language s) (tone s)
        (generatedArticle s) (isLoading s)
        (Some (js "Please enter a blog topic or keyword."))
        (history s) (view s).
Proof.
  intros H. by rewrite (handleGenerateArticle_blank env s H).
Qed.

Lemma blank_topic_is_refused_witness :
  let env := mkGenEnv (Fulfilled sample_data) 1714557600000 (js "2024-05-01T10:00:00.000Z") in
  let s := sample_state [0x20; 0x09; 0x3000]%N None [sample_article (js "1")] VMain in
  blank (topic s)
  ∧ requests (handleGenerateArticle env s) = []
  ∧ error (run (handleGenerateArticle env s) s) =
      Some (js "Please enter a blog topic or keyword.")
  ∧ history (run (handleGenerateArticle env s) s) = [sample_article (js "1")].
Proof.
  intros env s.
  assert (blank (topic s)) as Hb by (apply trim_blank; reflexivity).
  destruct (blank_topic_is_refused env s Hb) as [Hr Hs].
  split; [exact Hb |]. split; [exact Hr |]. by rewrite Hs.
Defined.

(** ** The history along a session *)

(** What each event does to the history list. *)
Lemma history_step s e :
  history (step s e) =
    match e with
    | GenerateSettled env =>
        match outcome env with
        | Fulfilled articleData =>
            newArticle env articleData :: take 49 (history s)
        | Rejected _ => history s
        end
    | ArticleDeleted id => filter (λ item, Article.id item ≠ id) (history s)
    | ClearClicked true => []
    | _ => history s
    end.
Proof.
  destruct e as [| | | | |env| | |[]|]; unfold step; simpl; try reflexivity.
  - unfold handleGenerateArticle_request.
    by destruct (negb (truthy (trim (topic s)))).
  - unfold handleGenerateArticle_settle. by destruct (outcome env).
  - by destruct (decide (view s = VHistory)).
Qed.

(** A run of [handleGenerateArticle] that issues its request is the click
    followed at once by the settling of the promise. *)
Lemma handleGenerateArticle_steps env s :
  ¬ blank (topic s) →
  run (handleGenerateArticle env s) s =
    step (step s GenerateClicked) (GenerateSettled env).
Proof.
  intros H. rewrite (handleGenerateArticle_not_blank env s H), run_app.
  apply trim_not_blank in H.
  unfold step, dispatch, handleGenerateArticle_request. by rewrite H.
Qed.

Lemma insert_length_le (a : Article.t) h : length (a :: take 49 h) ≤ 50.
Proof. simpl. rewrite length_take. lia. Qed.

Lemma step_keeps_cap s e :
  length (history s) ≤ 50 → length (history (step s e)) ≤ 50.
Proof.
  intros H. rewrite history_step.
  destruct e as [| | | | |env| |id|[]|]; simpl; try lia.
  - destruct (outcome env); [apply insert_length_le | done].
  - pose proof (length_filter (λ item, Article.id item ≠ id) (history s)). lia.
Qed.

Lemma session_snoc st es e : session st (es ++ [e]) = step (session st es) e.
Proof. unfold session. by rewrite foldl_app. Qed.

Lemma session_keeps_cap st es :
  length (history (startup st)) ≤ 50 → length (history (session st es)) ≤ 50.
Proof.
  intros H. induction es as [|e es IH] using rev_ind; [done |].
  rewrite session_snoc. by apply step_keeps_cap.
Qed.

(** What the startup effect leaves in the history. *)
Lemma history_startup st :
  history (startup st) =
    match getItem st with
    | GetThrows _ => []
    | GetReturns None => []
    | GetReturns (Some storedHistory) =>
        if truthy storedHistory then
          match JSON_parse st storedHistory with
          | ParseReturns v => v
          | ParseThrows _ => []
          end
        else []
    end.
Proof.
  unfold startup, loadHistory.
  destruct (getItem st) as [|[stored|]]; try reflexivity.
  destruct (truthy stored); [| reflexivity].
  by destruct (JSON_parse st stored).
Qed.

Lemma startup_within n st :
  stored_at_most n st → length (history (startup st)) ≤ n.
Proof.
  intros H. rewrite history_startup.
  destruct (getItem st) as [|[text|]] eqn:Hg; simpl; try lia.
  destruct (truthy text) eqn:Ht; simpl; [| lia].
  destruct (JSON_parse st text) as [|v] eqn:Hp; simpl; [lia |].
  by apply (H text v).
Qed.

(** C1, as the claim states it, fails at the startup load: from a storage
    that holds 51 articles the history after the load has 51 entries. *)
Lemma history_cap_fails_at_load :
  ¬ (length (history (startup (storage_of 51))) ≤ 50).
Proof. vm_compute. lia. Qed.

(** C1 (amended): the history has at most 50 entries throughout a session
    whenever the array held in storage at startup has at most 50; every event
    after startup takes a history of at most 50 entries to one of at most 50;
    a successful generation leaves at most 50 entries whatever the history
    was; and on a history of exactly 50 entries it keeps the new article
    followed by all the old ones but the last, the oldest. *)
Theorem history_cap :
  (∀ st es,
     stored_at_most 50 st →
     length (history (session st es)) ≤ 50)
  ∧ (∀ s e, length (history s) ≤ 50 → length (history (step s e)) ≤ 50)
  ∧ (∀ env articleData s,
       outcome env = Fulfilled articleData →
       length (history (step s (GenerateSettled env))) ≤ 50)
  ∧ (∀ env articleData s kept oldest,
       outcome env = Fulfilled articleData →
       history s = kept ++ [oldest] →
       length (history s) = 50 →
       history (step s (GenerateSettled env)) =
         newArticle env articleData :: kept).
Proof.
  split; [intros st es H; by apply session_keeps_cap, startup_within |].
  split; [exact step_keeps_cap |].
  split.
  - intros env d s Hd. rewrite history_step, Hd. apply insert_length_le.
  - intros env d s kept oldest Hd Hs Hlen. rewrite history_step, Hd.
    f_equal. rewrite Hs in *. rewrite length_app in Hlen. simpl in Hlen.
    apply take_app_length'. lia.
Qed.

Lemma history_cap_witness :
  let env := mkGenEnv (Fulfilled sample_data) 1714557660000
               (js "2024-05-01T10:01:00.000Z") in
  let s := sample_state (js "tea") None
             (replicate 49 (sample_article (js "2")) ++ [sample_article (js "1")])
             VMain in
  stored_at_most 50 (storage_of 50)
  ∧ length (history (session (storage_of 50)
      [TopicChanged (js "tea"); GenerateClicked; GenerateSettled env;
       ArticleDeleted (js "3"); Navigated VHistory; ClearClicked false])) ≤ 50
  ∧ history (step s (GenerateSettled env)) =
      newArticle env sample_data :: replicate 49 (sample_article (js "2")).
Proof.
  intros env s.
  assert (stored_at_most 50 (storage_of 50)) as Hst.
  { intros text v [= <-] _ Hp.
    vm_compute in Hp. injection Hp as <-. vm_compute. lia. }
  destruct history_cap as (Hsession & _ & _ & Hevict).
  split; [exact Hst |]. split.
  - by apply Hsession.
  - apply (Hevict env sample_data s _ (sample_article (js "1")));
      reflexivity.
Defined.

(** ** Generation *)

(** C2, as the claim states it, fails: a failed request does not leave the
    displayed article as it was before the call. *)
Lemma failed_generation_clears_article :
  let env := mkGenEnv (Rejected (ErrorObject (js "Failed to fetch")))
               1714557660000 (js "2024-05-01T10:01:00.000Z") in
  let s := sample_state (js "tea") (Some (sample_article (js "1")))
             [sample_article (js "1")] VMain in
  outcome env = Rejected (ErrorObject (js "Failed to fetch"))
  ∧ requests (handleGenerateArticle env s) ≠ []
  ∧ generatedArticle (run (handleGenerateArticle env s) s) ≠ generatedArticle s.
Proof. vm_compute. repeat split; discriminate. Qed.

(** C2 (amended): when the request fails, [handleGenerateArticle] sets the
    error to "Error: " followed by the message of the error caught (a fixed
    message when the value thrown is not an [Error]), clears the loading flag
    and leaves the history, the view and the form fields as they were; the
    displayed article is null at the end, since it is reset before the request
    is sent.  The [catch] and [finally] clauses themselves do not touch the
    displayed article. *)
Theorem failed_generation env s e :
  ¬ blank (topic s) →
  outcome env = Rejected e →
  run (handleGenerateArticle env s) s =
    mkState (topic s) (wordCount s) (language s) (tone s)
      None false (Some (js "Error: " ++ errorMessage e))
      (history s) (view s)
  ∧ ∀ s1, generatedArticle (step s1 (GenerateSettled env)) = generatedArticle s1.
Proof.
  intros Hb He. split.
  - rewrite (handleGenerateArticle_not_blank env s Hb).
    unfold handleGenerateArticle_settle. by rewrite He.
  - intros s1. unfold step. simpl. unfold handleGenerateArticle_settle.
    by rewrite He.
Qed.

Lemma failed_generation_witness :
  let env := mkGenEnv (Rejected OtherValue)
               1714557660000 (js "2024-05-01T10:01:00.000Z") in
  let s := sample_state (js " tea ") (Some (sample_article (js "1")))
             [sample_article (js "1")] VHistory in
  ¬ blank (topic s)
  ∧ run (handleGenerateArticle env s) s =
      mkState (js " tea ") (js "500") (js "English") (js "Professional")
        None false (Some (js "Error: An unexpected error occurred."))
        [sample_article (js "1")] VHistory.
Proof.
  intros env s.
  assert (¬ blank (topic s)) as Hb.
  { intros H%trim_blank. vm_compute in H. discriminate. }
  split; [exact Hb |].
  exact (proj1 (failed_generation env s OtherValue Hb eq_refl)).
Defined.

(** C3: when the request succeeds, [handleGenerateArticle] puts exactly one
    new article at the front of the history, followed by the first 49 of the
    entries there were, in their order (all of them, and the history one
    longer, when there were fewer than 50), and the error ends null. *)
Theorem successful_generation env s articleData :
  ¬ blank (topic s) →
  outcome env = Fulfilled articleData →
  let s' := run (handleGenerateArticle env s) s in
  history s' = newArticle env articleData :: take 49 (history s)
  ∧ (length (history s) < 50 →
       history s' = newArticle env articleData :: history s
       ∧ length (history s') = S (length (history s)))
  ∧ error s' = None.
Proof.
  intros Hb Hd s'.
  assert (s' = mkState (topic s) (wordCount s) (language s) (tone s)
                 (Some (newArticle env articleData)) false None
                 (newArticle env articleData :: take 49 (history s))
                 (view s)) as ->.
  { unfold s'. rewrite (handleGenerateArticle_not_blank env s Hb).
    unfold handleGenerateArticle_settle. by rewrite Hd. }
  simpl. split; [done |]. split; [| done].
  intros Hlen. rewrite take_ge by lia. done.
Qed.

Lemma successful_generation_witness :
  let env := mkGenEnv (Fulfilled sample_data)
               1714557660000 (js "2024-05-01T10:01:00.000Z") in
  let s := sample_state (js "tea") None
             [sample_article (js "2"); sample_article (js "1")] VMain in
  ¬ blank (topic s)
  ∧ history (run (handleGenerateArticle env s) s) =
      [Article.mk (js "1714557660000") (js "2024-05-01T10:01:00.000Z")
         (js "tea") (js "500") (js "English") (js "Professional") (js "On tea.");
       sample_article (js "2"); sample_article (js "1")]
  ∧ error (run (handleGenerateArticle env s) s) = None.
Proof.
  intros env s.
  assert (¬ blank (topic s)) as Hb.
  { intros H%trim_blank. vm_compute in H. discriminate. }
  destruct (successful_generation env s sample_data Hb eq_refl) as (H1 & _ & H3).
  split; [exact Hb |]. split; [| exact H3].
  rewrite H1. reflexivity.
Defined.

(** ** Selecting, deleting and clearing *)

(** C7: [handleSelectFromHistory] makes the article it is given the displayed
    one and switches the view to 'main', whatever the state was (the article
    need not even be in the history); nothing else changes. *)
Theorem select_shows_article s article :
  run (handleSelectFromHistory article) s =
    mkState (topic s) (wordCount s) (language s) (tone s)
      (Some article) (isLoading s) (error s) (history s) VMain.
Proof. reflexivity. Qed.

Lemma filter_all {A} (P : A → Prop) `{∀ x, Decision (P x)} (l : list A) :
  Forall P l → filter P l = l.
Proof.
  induction 1 as [|x l Hx _ IH]; [done |].
  by rewrite filter_cons_True, IH.
Qed.

Lemma filter_unique_id id (h : list Article.t) :
  NoDup (Article.id <$> h) →
  id ∈ Article.id <$> h →
  removes_one id h (filter (λ item, Article.id item ≠ id) h).
Proof.
  induction h as [|a h IH]; simpl; intros Hnd Hin.
  - by apply elem_of_nil in Hin.
  - apply NoDup_cons in Hnd as [Ha Hnd].
    destruct (decide (Article.id a = id)) as [Heq | Hne].
    + exists [], a, h. split; [done |]. split; [done |].
      rewrite filter_cons_False by (intros Hc; by apply Hc).
      simpl. apply filter_all, Forall_forall.
      intros x Hx Hc. apply Ha. rewrite Heq, <- Hc.
      by apply list_elem_of_fmap_2.
    + apply elem_of_cons in Hin as [Hin | Hin]; [congruence |].
      destruct (IH Hnd Hin) as (before & item & after & -> & Hid & Hf).
      exists (a :: before), item, after.
      split; [done |]. split; [done |].
      rewrite filter_cons_True by done. by rewrite Hf.
Qed.

(** C5, as the claim states it, fails: when two entries carry the id, the
    deletion removes both, which no removal of a single entry yields. *)
Lemma delete_removes_every_match :
  let h := [sample_article (js "7"); sample_article (js "8");
            sample_article (js "7")] in
  let s := sample_state [] None h VHistory in
  js "7" ∈ Article.id <$> history s
  ∧ history (run (handleDeleteFromHistory (js "7")) s) = [sample_article (js "8")]
  ∧ ¬ removes_one (js "7") (history s)
        (history (run (handleDeleteFromHistory (js "7")) s)).
Proof.
  intros h s. split; [| split].
  - apply elem_of_cons. by left.
  - reflexivity.
  - intros (before & item & after & Hh & _ & Hh').
    apply (f_equal length) in Hh, Hh'.
    rewrite length_app in Hh, Hh'. simpl in Hh, Hh'. lia.
Qed.

(** C5 (amended): [handleDeleteFromHistory(id)] removes every entry whose id
    is [id] and keeps all the others, in their order, touching nothing else in
    the state; when the ids of the history are pairwise distinct and [id] is
    one of them, that is the removal of exactly one entry. *)
Theorem delete_by_id s id :
  run (handleDeleteFromHistory id) s =
    mkState (topic s) (wordCount s) (language s) (tone s)
      (generatedArticle s) (isLoading s) (error s)
      (filter (λ item, Article.id item ≠ id) (history s)) (view s)
  ∧ (NoDup (Article.id <$> history s) →
     id ∈ Article.id <$> history s →
     removes_one id (history s)
       (history (run (handleDeleteFromHistory id) s))).
Proof.
  split; [reflexivity |].
  intros Hnd Hin. by apply filter_unique_id.
Qed.

Lemma delete_by_id_witness :
  let h := [sample_article (js "9"); sample_article (js "8");
            sample_article (js "7")] in
  let s := sample_state [] None h VHistory in
  NoDup (Article.id <$> history s)
  ∧ js "8" ∈ Article.id <$> history s
  ∧ removes_one (js "8") (history s)
      (history (run (handleDeleteFromHistory (js "8")) s))
  ∧ history (run (handleDeleteFromHistory (js "8")) s) =
      [sample_article (js "9"); sample_article (js "7")].
Proof.
  intros h s.
  assert (NoDup (Article.id <$> history s)) as Hnd.
  { refine (bool_decide_unpack _ _). vm_compute. exact I. }
  assert (js "8" ∈ Article.id <$> history s) as Hin.
  { refine (bool_decide_unpack _ _). vm_compute. exact I. }
  split; [exact Hnd |]. split; [exact Hin |].
  split; [exact (proj2 (delete_by_id s (js "8")) Hnd Hin) |].
  reflexivity.
Defined.

(** C6: [handleClearHistory] empties the history when the user confirms and
    leaves it (and the whole state) as it was when the user does not. *)
Theorem clear_history_on_confirm s :
  history (run (handleClearHistory true s) s) = []
  ∧ run (handleClearHistory false s) s = s.
Proof.
  split.
  - unfold handleClearHistory. by destruct (decide (view s = VHistory)).
  - by destruct s.
Qed.

(** C9: when the user confirms the clearing, the displayed article is set to
    null unless the current view is 'history', in which case it is left as it
    was. *)
Theorem clear_history_article s :
  (view s ≠ VHistory →
     generatedArticle (run (handleClearHistory true s) s) = None)
  ∧ (view s = VHistory →
     generatedArticle (run (handleClearHistory true s) s) = generatedArticle s).
Proof.
  unfold handleClearHistory.
  split; intros Hv; by destruct (decide (view s = VHistory)).
Qed.

Lemma clear_history_article_witness :
  let shown := Some (sample_article (js "1")) in
  let on_main := sample_state [] shown [sample_article (js "1")] VMain in
  let on_history := sample_state [] shown [sample_article (js "1")] VHistory in
  generatedArticle (run (handleClearHistory true on_main) on_main) = None
  ∧ generatedArticle (run (handleClearHistory true on_history) on_history) = shown.
Proof.
  intros shown on_main on_history. split.
  - apply (proj1 (clear_history_article on_main)). discriminate.
  - apply (proj2 (clear_history_article on_history)). reflexivity.
Defined.

(** ** The startup load *)

(** C8: when reading or parsing the stored value throws, the startup effect
    logs the failure to the console and sets the history to the empty list,
    changing nothing else; the application then starts from its initial
    state, and a session goes on from there as on a fresh start. *)
Theorem load_failure_gives_empty_history st :
  load_fails st →
  logged (loadHistory st) = [js "Failed to load history from localStorage:"]
  ∧ (∀ s, run (loadHistory st) s =
            mkState (topic s) (wordCount s) (language s) (tone s)
              (generatedArticle s) (isLoading s) (error s) [] (view s))
  ∧ startup st = initial
  ∧ (∀ es, session st es = foldl step initial es).
Proof.
  intros Hf.
  assert (loadHistory st =
            [console_error (js "Failed to load history from localStorage:");
             setHistory (const [])]) as Hops.
  { unfold loadHistory.
    destruct Hf as [[e ->] | (text & e & -> & -> & ->)]; reflexivity. }
  assert (startup st = initial) as Hst by (unfold startup; by rewrite Hops).
  rewrite Hops. repeat split; try done.
  intros es. unfold session. by rewrite Hst.
Qed.

Lemma load_failure_gives_empty_history_witness :
  (load_fails storage_denied ∧ startup storage_denied = initial)
  ∧ (load_fails storage_garbled
     ∧ history (session storage_garbled [Navigated VHistory]) = []).
Proof.
  assert (load_fails storage_denied) as H1 by (left; by eexists).
  assert (load_fails storage_garbled) as H2.
  { right. exists (js "[{"), (ErrorObject (js "Unexpected end of JSON input")).
    by repeat split. }
  split; (split; [assumption |]).
  - exact (proj1 (proj2 (proj2 (load_failure_gives_empty_history _ H1)))).
  - rewrite (proj2 (proj2 (proj2 (load_failure_gives_empty_history _ H2)))).
    reflexivity.
Defined.

(** C10: the startup load installs the value [JSON.parse] returns as the
    history, as it is: whatever array of entries the stored text denotes is
    the history after the load, with no truncation and no check of the
    entries; and there is a storage holding an array of more than 50 items
    after whose load the history has more than 50 entries. *)
Theorem load_is_verbatim :
  (∀ st text v,
     getItem st = GetReturns (Some text) →
     truthy text = true →
     JSON_parse st text = ParseReturns v →
     run (loadHistory st) initial =
       mkState (topic initial) (wordCount initial) (language initial)
         (tone initial) None false None v VMain)
  ∧ (∃ st text v,
       getItem st = GetReturns (Some text)
       ∧ JSON_parse st text = ParseReturns v
       ∧ 50 < length v
       ∧ 50 < length (history (startup st))).
Proof.
  split.
  - intros st text v Hg Ht Hp. unfold loadHistory. by rewrite Hg, Ht, Hp.
  - exists (storage_of 51), stored_text,
      (replicate 51 (sample_article (js "1714557600000"))).
    repeat split; vm_compute; lia.
Qed.

Lemma load_is_verbatim_witness :
  let twice := [sample_article (js "7"); sample_article (js "7")] in
  history (startup (storage_holding stored_text twice)) = twice.
Proof.
  intros twice.
  pose proof (proj1 load_is_verbatim (storage_holding stored_text twice)
                stored_text twice eq_refl eq_refl eq_refl) as H.
  unfold startup. by rewrite H.
Defined.

(** * Further properties of the controller *)

(** ** The save effect *)


(** X2: a history the save effect has written is the history of the next
    startup, when [JSON.parse] inverts [JSON.stringify] and the key is read
    back as written; if it had at most 50 entries, so has every state of the
    session that follows. *)
Theorem saved_history_is_loaded w s st text :
  inverts st w (history s) →
  (saveHistory w s).2 = Some text →
  getItem st = GetReturns (Some text) →
  history (startup st) = history s
  ∧ (length (history s) ≤ 50 →
     ∀ es, length (history (session st es)) ≤ 50).
Proof.
  intros Hinv Hsave Hget.
  assert (JSON_stringify w (history s) = StringifyReturns text) as Hstr.
  { unfold saveHistory in Hsave.
    destruct (JSON_stringify w (history s)) as [e|t]; [done |].
    destruct (setItem w t); simpl in Hsave; congruence. }
  destruct (Hinv _ Hstr) as [Ht Hp].
  assert (history (startup st) = history s) as Heq
    by (by rewrite history_startup, Hget, Ht, Hp).
  split; [exact Heq |].
  intros Hlen es. apply session_keeps_cap. by rewrite Heq.
Qed.

Lemma saved_history_is_loaded_witness :
  let h := [sample_article (js "2"); sample_article (js "1")] in
  let s := sample_state [] None h VHistory in
  let st := storage_holding stored_text h in
  inverts st (save_as stored_text) (history s)
  ∧ getItem st = GetReturns (stored_after (save_as stored_text) s None)
  ∧ history (startup st) = h
  ∧ length (history (session st [ArticleDeleted (js "2")])) ≤ 50.
Proof.
  intros h s st.
  assert (inverts st (save_as stored_text) (history s)) as Hinv.
  { intros text [= <-]. split; reflexivity. }
  destruct (saved_history_is_loaded (save_as stored_text) s st stored_text
              Hinv eq_refl eq_refl) as [H1 H2].
  split; [exact Hinv |]. split; [reflexivity |]. split; [exact H1 |].
  apply H2. simpl. lia.
Defined.

(** ** The startup load on an absent key *)

(** X3: when the key is absent ([getItem] returns null) or holds the empty
    string, the startup effect does nothing at all: [JSON.parse] is not
    called, nothing is logged, and the application starts from its initial
    state. *)
Theorem absent_key_loads_nothing st :
  getItem st = GetReturns None ∨ getItem st = GetReturns (Some []) →
  loadHistory st = [] ∧ startup st = initial.
Proof.
  unfold startup, loadHistory. by intros [-> | ->].
Qed.

Lemma absent_key_loads_nothing_witness :
  let st := mkStorage (GetReturns (Some []))
              (λ _, ParseThrows (ErrorObject (js "Unexpected end of JSON input"))) in
  loadHistory st = [] ∧ startup st = initial.
Proof.
  intros st. apply (absent_key_loads_nothing st). by right.
Defined.

(** ** Requests *)

(** X4: a click on generate with a topic that is not blank sends exactly one
    request, which carries the topic as typed, untrimmed, and the three
    options of the form, and leaves the state loading, with no error and no
    displayed article; no other event sends a request. *)
Theorem click_sends_one_request s :
  (¬ blank (topic s) →
     requests (dispatch GenerateClicked s) =
       [(topic s, wordCount s, language s, tone s)]
     ∧ step s GenerateClicked =
         mkState (topic s) (wordCount s) (language s) (tone s)
           None true None (history s) (view s))
  ∧ (∀ e, e ≠ GenerateClicked → requests (dispatch e s) = []).
Proof.
  split.
  - intros H%trim_not_blank. unfold step. simpl.
    unfold handleGenerateArticle_request. by rewrite H.
  - intros e He.
    destruct e as [| | | | |env| | |[]|]; simpl; try done.
    + unfold handleGenerateArticle_settle. by destruct (outcome env).
    + by destruct (decide (view s = VHistory)).
Qed.

Lemma click_sends_one_request_witness :
  let s := sample_state (js " tea ") (Some (sample_article (js "1"))) [] VMain in
  ¬ blank (topic s)
  ∧ requests (dispatch GenerateClicked s) =
      [(js " tea ", js "500", js "English", js "Professional")].
Proof.
  intros s.
  assert (¬ blank (topic s)) as Hb.
  { intros H%trim_blank. vm_compute in H. discriminate. }
  split; [exact Hb |].
  exact (proj1 (proj1 (click_sends_one_request s) Hb)).
Defined.

(** ** The settling of a request *)

(** X5: when a request is fulfilled, in whatever state the answer arrives,
    the article displayed afterwards is the first entry of the history; its
    id is the decimal of [Date.now()], its date the ISO string read, its
    other fields those of the answer; the loading flag is cleared and the
    error and the view are not touched. *)
Theorem fulfilled_shows_first_entry env articleData s :
  outcome env = Fulfilled articleData →
  let s' := step s (GenerateSettled env) in
  generatedArticle s' = head (history s')
  ∧ generatedArticle s' =
      Some (Article.mk (toString (Date_now env)) (toISOString env)
              (ArticleData.topic articleData)
              (ArticleData.wordCount articleData)
              (ArticleData.language articleData)
              (ArticleData.tone articleData)
              (ArticleData.content articleData))
  ∧ isLoading s' = false
  ∧ error s' = error s
  ∧ view s' = view s.
Proof.
  intros Hd s'. unfold s', step. simpl.
  unfold handleGenerateArticle_settle. by rewrite Hd.
Qed.

Lemma fulfilled_shows_first_entry_witness :
  let env := mkGenEnv (Fulfilled sample_data) 1714557660000
               (js "2024-05-01T10:01:00.000Z") in
  let s := sample_state (js "tea") None [sample_article (js "1")] VHistory in
  generatedArticle (step s (GenerateSettled env)) =
    head (history (step s (GenerateSettled env)))
  ∧ Article.id <$> generatedArticle (step s (GenerateSettled env)) =
      Some (js "1714557660000").
Proof.
  intros env s.
  destruct (fulfilled_shows_first_entry env sample_data s eq_refl)
    as (H1 & H2 & _).
  split; [exact H1 |]. rewrite H2. reflexivity.
Defined.

(** ** Identifiers *)

Lemma js_inj s1 s2 : js s1 = js s2 → s1 = s2.
Proof.
  unfold js. intros H.
  rewrite <- (string_of_list_ascii_of_string s1).
  rewrite <- (string_of_list_ascii_of_string s2).
  f_equal. revert H.
  generalize (list_ascii_of_string s1), (list_ascii_of_string s2).
  induction l as [|a l IH]; intros [|b l']; simpl; try done.
  intros [= Hab Hl]. f_equal; [| by apply IH].
  by rewrite <- (ascii_N_embedding a), Hab, ascii_N_embedding.
Qed.

Lemma toString_inj n m : toString n = toString m → n = m.
Proof.
  unfold toString. intros H%js_inj.
  apply DecimalN.Unsigned.to_uint_inj.
  assert (∀ k, N.to_uint k ≠ Decimal.Nil) as Hnil.
  { intros [|p]; [done |]. apply DecimalPos.Unsigned.to_uint_nonnil. }
  pose proof (NilZero.usu _ (Hnil n)) as Hn.
  pose proof (NilZero.usu _ (Hnil m)) as Hm.
  rewrite H in Hn. congruence.
Qed.

(** X6: two articles built at different readings of [Date.now()] have
    different ids, whatever the answers of the service. *)
Theorem distinct_clocks_distinct_ids env1 env2 d1 d2 :
  Date_now env1 ≠ Date_now env2 →
  Article.id (newArticle env1 d1) ≠ Article.id (newArticle env2 d2).
Proof.
  intros Hne Heq. apply Hne. by apply toString_inj.
Qed.

Lemma distinct_clocks_distinct_ids_witness :
  let env1 := mkGenEnv (Fulfilled sample_data) 9 (js "1970-01-01T00:00:00.009Z") in
  let env2 := mkGenEnv (Fulfilled sample_data) 10 (js "1970-01-01T00:00:00.010Z") in
  Article.id (newArticle env1 sample_data) ≠ Article.id (newArticle env2 sample_data).
Proof.
  intros env1 env2.
  apply (distinct_clocks_distinct_ids env1 env2). discriminate.
Defined.

(** ** The order and the origin of the entries *)

Lemma generated_snoc es e : generated (es ++ [e]) = generated es ++ generated [e].
Proof. apply omap_app. Qed.

Lemma clocks_snoc es e : clocks (es ++ [e]) = clocks es ++ clocks [e].
Proof. apply omap_app. Qed.

Lemma ids_generated es : ids (generated es) = toString <$> clocks es.
Proof.
  unfold ids, generated, clocks.
  induction es as [|e es IH]; [done |]. csimpl.
  destruct e as [| | | | |env| | | |]; try done.
  destruct (outcome env); [| done]. csimpl. by f_equal.
Qed.

Lemma step_history_sublist s e :
  history (step s e) `sublist_of` generated [e] ++ history s.
Proof.
  rewrite history_step. unfold generated.
  destruct e as [| | | | |env| |id|[]|]; simpl; try done.
  - destruct (outcome env); simpl; [| done].
    apply sublist_skip, sublist_take.
  - apply sublist_filter.
  - apply sublist_nil_l.
Qed.

Lemma session_history_sublist st es :
  history (session st es)
    `sublist_of` reverse (generated es) ++ history (startup st).
Proof.
  induction es as [|e es IH] using rev_ind; [done |].
  rewrite session_snoc, generated_snoc, reverse_app, <- (assoc_L (++)).
  etrans; [apply step_history_sublist |].
  assert (reverse (generated [e]) = generated [e]) as ->.
  { unfold generated. destruct e as [| | | | |env| | | |]; try done.
    simpl. by destruct (outcome env). }
  by apply sublist_app.
Qed.

(** X7: at every point of a session the history is newest first: it is a
    subsequence of the articles generated so far, latest first, followed by
    the history loaded at startup in its order.  So every entry is an article
    loaded at startup or built by a fulfilled generation, as it was then. *)
Theorem history_is_newest_first st es :
  history (session st es)
    `sublist_of` reverse (generated es) ++ history (startup st)
  ∧ ∀ a, a ∈ history (session st es) →
         a ∈ generated es ∨ a ∈ history (startup st).
Proof.
  split; [apply session_history_sublist |].
  intros a Ha.
  pose proof (elem_of_sublist _ _ _ Ha (session_history_sublist st es)) as Hin.
  apply elem_of_app in Hin as [Hin | Hin]; [left | by right].
  by rewrite elem_of_reverse in Hin.
Qed.

Lemma history_is_newest_first_witness :
  let env1 := mkGenEnv (Fulfilled sample_data) 9 (js "1970-01-01T00:00:00.009Z") in
  let env2 := mkGenEnv (Fulfilled sample_data) 10 (js "1970-01-01T00:00:00.010Z") in
  let es := [GenerateSettled env1; GenerateSettled env2; ArticleDeleted (js "9")] in
  sample_article (js "1714557600000") ∈ history (session (storage_of 2) es)
  ∧ (sample_article (js "1714557600000") ∈ generated es
     ∨ sample_article (js "1714557600000") ∈ history (startup (storage_of 2))).
Proof.
  intros env1 env2 es.
  assert (sample_article (js "1714557600000") ∈ history (session (storage_of 2) es))
    as Hin by (apply list_elem_of_further, list_elem_of_here).
  split; [exact Hin |].
  exact (proj2 (history_is_newest_first (storage_of 2) es) _ Hin).
Defined.

#[local] Instance toString_Inj : Inj (=) (=) toString.
Proof. intros n m. apply toString_inj. Qed.

(** X8: when the ids loaded at startup are pairwise distinct, the readings of
    [Date.now()] at the fulfilled generations are pairwise distinct, and none
    of them is the id of a loaded entry, the ids of the history are pairwise
    distinct at every point of the session; deleting one of them then removes
    exactly one entry. *)
Theorem ids_stay_distinct st es :
  NoDup (ids (history (startup st))) →
  NoDup (clocks es) →
  (∀ c, c ∈ clocks es → toString c ∉ ids (history (startup st))) →
  NoDup (ids (history (session st es)))
  ∧ ∀ id, id ∈ ids (history (session st es)) →
          removes_one id (history (session st es))
            (history (step (session st es) (ArticleDeleted id))).
Proof.
  intros Hstored Hclocks Hfresh.
  assert (NoDup (ids (history (session st es)))) as Hnd.
  { apply (sublist_NoDup _ (ids (reverse (generated es) ++ history (startup st)))).
    - unfold ids at 1. rewrite fmap_app, fmap_reverse.
      fold (ids (generated es)). rewrite ids_generated.
      apply NoDup_app. split; [| split; [| exact Hstored]].
      + rewrite reverse_Permutation. by apply (NoDup_fmap_2 toString).
      + intros x Hx. rewrite elem_of_reverse in Hx.
        apply list_elem_of_fmap in Hx as (c & -> & Hc). by apply Hfresh.
      - apply fmap_sublist, session_history_sublist. }
  split; [exact Hnd |].
  intros id Hid. rewrite history_step. by apply filter_unique_id.
Qed.

Lemma ids_stay_distinct_witness :
  let env1 := mkGenEnv (Fulfilled sample_data) 9 (js "1970-01-01T00:00:00.009Z") in
  let env2 := mkGenEnv (Fulfilled sample_data) 10 (js "1970-01-01T00:00:00.010Z") in
  let es := [GenerateSettled env1; Navigated VHistory; GenerateSettled env2] in
  NoDup (ids (history (session (storage_of 1) es)))
  ∧ history (step (session (storage_of 1) es) (ArticleDeleted (js "9"))) =
      [newArticle env2 sample_data; sample_article (js "1714557600000")].
Proof.
  intros env1 env2 es.
  assert (NoDup (ids (history (startup (storage_of 1))))) as H1.
  { refine (bool_decide_unpack _ _). vm_compute. exact I. }
  assert (NoDup (clocks es)) as H2.
  { refine (bool_decide_unpack _ _). vm_compute. exact I. }
  assert (∀ c, c ∈ clocks es → toString c ∉ ids (history (startup (storage_of 1))))
    as H3.
  { intros c Hc Hin.
    apply elem_of_cons in Hc as [-> | Hc]; [| apply elem_of_cons in Hc as [-> | Hc]].
    - vm_compute in Hin. apply list_elem_of_singleton in Hin. discriminate.
    - vm_compute in Hin. apply list_elem_of_singleton in Hin. discriminate.
    - by apply elem_of_nil in Hc. }
  split; [exact (proj1 (ids_stay_distinct _ es H1 H2 H3)) | reflexivity].
Defined.

(** ** What each event leaves alone *)

Lemma step_frame s e :
  (generation_event e = false →
     error (step s e) = error s ∧ isLoading (step s e) = isLoading s)
  ∧ (form_event e = false →
       topic (step s e) = topic s ∧ wordCount (step s e) = wordCount s
       ∧ language (step s e) = language s ∧ tone (step s e) = tone s)
  ∧ (view_event e = false → view (step s e) = view s).
Proof.
  unfold step.
  destruct e as [| | | | |env| | |[]|]; simpl;
    unfold handleGenerateArticle_request, handleGenerateArticle_settle;
    try destruct (negb (truthy (trim (topic s))));
    try destruct (outcome env);
    try destruct (decide (view s = VHistory));
    simpl; repeat split; done.
Qed.

(** X9: the error and the loading flag are changed by nothing but the two
    halves of a generation; the four form values by nothing but the inputs of
    the form (a generation, fulfilled or not, keeps the topic typed); the
    view by nothing but a navigation or the selection of an article. *)
Theorem events_frame s e :
  (generation_event e = false →
     error (step s e) = error s ∧ isLoading (step s e) = isLoading s)
  ∧ (form_event e = false →
       topic (step s e) = topic s ∧ wordCount (step s e) = wordCount s
       ∧ language (step s e) = language s ∧ tone (step s e) = tone s)
  ∧ (view_event e = false → view (step s e) = view s).
Proof. apply step_frame. Qed.

Lemma events_frame_witness :
  let s := mkState (js "tea") (js "500") (js "English") (js "Professional")
             None false (Some (js "Error: Failed to fetch"))
             [sample_article (js "1")] VMain in
  error (step s (ArticleDeleted (js "1"))) = Some (js "Error: Failed to fetch")
  ∧ topic (step s GenerateClicked) = js "tea"
  ∧ view (step s (ClearClicked true)) = VMain.
Proof.
  intros s. split; [| split].
  - exact (proj1 (proj1 (events_frame s (ArticleDeleted (js "1"))) eq_refl)).
  - exact (proj1 (proj1 (proj2 (events_frame s GenerateClicked)) eq_refl)).
  - exact (proj2 (proj2 (events_frame s (ClearClicked true))) eq_refl).
Defined.

(** ** Deleting *)

(** X10: deleting an id that no entry carries changes nothing in the state;
    and after any deletion no entry carries the id deleted. *)
Theorem delete_absent_id s id :
  (id ∉ ids (history s) → run (handleDeleteFromHistory id) s = s)
  ∧ (id ∉ ids (history (run (handleDeleteFromHistory id) s))).
Proof.
  split.
  - intros Hid. destruct s as [t w l n g b e h v]. simpl in *.
    f_equal. apply filter_all, Forall_forall.
    intros a Ha Heq. apply Hid. rewrite <- Heq.
    by apply list_elem_of_fmap_2.
  - simpl. unfold ids.
    intros (a & Ha & Hin)%list_elem_of_fmap.
    apply list_elem_of_filter in Hin as [Hne _]. by apply Hne.
Qed.

Lemma delete_absent_id_witness :
  let s := sample_state [] (Some (sample_article (js "1")))
             [sample_article (js "2"); sample_article (js "1")] VHistory in
  (js "3" ∉ ids (history s))
  ∧ run (handleDeleteFromHistory (js "3")) s = s.
Proof.
  intros s.
  assert (js "3" ∉ ids (history s)) as Hid.
  { refine (bool_decide_unpack _ _). vm_compute. exact I. }
  split; [exact Hid |].
  exact (proj1 (delete_absent_id s (js "3")) Hid).
Defined.

(** X11: deleting the same id twice is deleting it once, and two deletions
    can be made in either order. *)
Theorem delete_twice_and_swap s id1 id2 :
  run (handleDeleteFromHistory id1) (run (handleDeleteFromHistory id1) s) =
    run (handleDeleteFromHistory id1) s
  ∧ run (handleDeleteFromHistory id1) (run (handleDeleteFromHistory id2) s) =
      run (handleDeleteFromHistory id2) (run (handleDeleteFromHistory id1) s).
Proof.
  destruct s as [t w l n g b e h v]. simpl. split; f_equal.
  - rewrite list_filter_filter. apply list_filter_iff. intros a. tauto.
  - rewrite !list_filter_filter. apply list_filter_iff. intros a. tauto.
Qed.

(** ** The error banner *)

Lemma startup_keeps_rest st :
  startup st =
    mkState [] (js "500") (js "English") (js "Professional")
      None false None (history (startup st)) VMain.
Proof.
  unfold startup, loadHistory.
  destruct (getItem st) as [|[text|]]; try reflexivity.
  destruct (truthy text); [| reflexivity].
  by destruct (JSON_parse st text).
Qed.

Lemma step_error_truthy s e :
  (∀ m, error s = Some m → truthy m = true) →
  ∀ m, error (step s e) = Some m → truthy m = true.
Proof.
  intros H m.
  destruct (generation_event e) eqn:He.
  - unfold step. destruct e as [| | | | |env| | | |]; try done; simpl.
    + unfold handleGenerateArticle_request.
      destruct (negb (truthy (trim (topic s)))); simpl; [| done].
      by intros [= <-].
    + unfold handleGenerateArticle_settle.
      destruct (outcome env); simpl; [apply H |].
      by intros [= <-].
  - destruct (proj1 (step_frame s e) He) as [-> _]. apply H.
Qed.

Lemma session_error_truthy st es m :
  error (session st es) = Some m → truthy m = true.
Proof.
  revert m. induction es as [|e es IH] using rev_ind.
  - intros m. unfold session. simpl. by rewrite startup_keeps_rest.
  - rewrite session_snoc. by apply step_error_truthy.
Qed.

(** X12: no error the controller sets is the empty string, at any point of a
    session; so whenever the main page is rendered with an error in the
    state, its banner shows that error: the test [error && ...] hides none. *)
Theorem error_is_always_shown st es :
  (∀ m, error (session st es) = Some m → truthy m = true)
  ∧ (view (session st es) = VMain →
     ∃ form disabled loader articleOutput,
       renderContent (session st es) =
         MainPage form disabled (error (session st es)) loader articleOutput).
Proof.
  split; [intros m; apply session_error_truthy |].
  intros Hv. unfold renderContent. rewrite Hv.
  do 4 eexists. f_equal.
  destruct (error (session st es)) as [m|] eqn:He; [| done].
  by rewrite (session_error_truthy st es m He).
Qed.

Lemma error_is_always_shown_witness :
  let env := mkGenEnv (Rejected (ErrorObject [])) 9 (js "1970-01-01T00:00:00.009Z") in
  let es := [TopicChanged (js "tea"); GenerateClicked; GenerateSettled env] in
  view (session (storage_of 1) es) = VMain
  ∧ ∃ form disabled loader articleOutput,
      renderContent (session (storage_of 1) es) =
        MainPage form disabled (Some (js "Error: ")) loader articleOutput.
Proof.
  intros env es. split; [reflexivity |].
  exact (proj2 (error_is_always_shown (storage_of 1) es) eq_refl).
Defined.

(** ** Requests in flight *)

Lemma drive_session st es : (drive (startup st) 0 es).1 = session st es.
Proof.
  unfold session. generalize (startup st), 0.
  induction es as [|e es IH]; intros s n; [done |]. simpl. apply IH.
Qed.

Lemma drive_gated s n es :
  (isLoading s = true ∧ n = 1) ∨ (isLoading s = false ∧ n = 0) →
  gated s n es →
  (isLoading (drive s n es).1 = true ∧ (drive s n es).2 = 1)
  ∨ (isLoading (drive s n es).1 = false ∧ (drive s n es).2 = 0).
Proof.
  revert s n. induction es as [|e es IH]; intros s n Hinv; [done |].
  simpl. intros [He Hes]. apply IH; [| exact Hes]. clear IH Hes.
  unfold in_flight_after, step.
  destruct e as [| | | | |env| | |[]|]; simpl;
    try (destruct Hinv as [[-> ->] | [-> ->]]; simpl; first [by left | by right]).
  - unfold clickable, renderContent in He.
    destruct (view s); try done. simpl in He.
    destruct Hinv as [[Hl ->] | [Hl ->]]; [by rewrite Hl in He |].
    unfold handleGenerateArticle_request.
    destruct (negb (truthy (trim (topic s)))); simpl; [by right | by left].
  - right. destruct Hinv as [[_ ->] | [_ ->]]; [| lia].
    unfold handleGenerateArticle_settle. by destruct (outcome env).
  - destruct (decide (view s = VHistory));
      destruct Hinv as [[-> ->] | [-> ->]]; simpl; first [by left | by right].
Qed.

(** X13: in a session in which the generate button is clicked only while it
    is on the page and not disabled, and answers arrive only for requests in
    flight, at most one request is in flight at any time, and the loading
    flag is set exactly when one is. *)
Theorem one_request_in_flight st es :
  gated (startup st) 0 es →
  (drive (startup st) 0 es).1 = session st es
  ∧ (drive (startup st) 0 es).2 ≤ 1
  ∧ (isLoading (session st es) = true ↔ (drive (startup st) 0 es).2 = 1).
Proof.
  intros Hg. split; [apply drive_session |].
  rewrite <- drive_session.
  destruct (drive_gated (startup st) 0 es) as [[Hl Hn] | [Hl Hn]];
    [right; by rewrite startup_keeps_rest | exact Hg | |];
    rewrite Hl, Hn; split; try lia; split; try done; lia.
Qed.

Lemma one_request_in_flight_witness :
  let env := mkGenEnv (Fulfilled sample_data) 9 (js "1970-01-01T00:00:00.009Z") in
  let es := [TopicChanged (js "tea"); GenerateClicked; Navigated VHistory;
             ArticleDeleted (js "1"); GenerateSettled env; Navigated VMain;
             GenerateClicked] in
  gated (startup (storage_of 1)) 0 es
  ∧ (drive (startup (storage_of 1)) 0 es).2 ≤ 1
  ∧ isLoading (session (storage_of 1) es) = true.
Proof.
  intros env es.
  assert (gated (startup (storage_of 1)) 0 es) as Hg.
  { vm_compute. repeat split; lia. }
  destruct (one_request_in_flight (storage_of 1) es Hg) as (_ & Hn & _).
  split; [exact Hg |]. split; [exact Hn | reflexivity].
Defined.

(** X14: in such a session, whenever the main page is rendered, its button
    is disabled and its loader is shown exactly when a request is in
    flight. *)
Theorem loader_while_in_flight st es form disabled banner loader articleOutput :
  gated (startup st) 0 es →
  renderContent (session st es) =
    MainPage form disabled banner loader articleOutput →
  (disabled = true ↔ (drive (startup st) 0 es).2 = 1)
  ∧ (loader = true ↔ (drive (startup st) 0 es).2 = 1).
Proof.
  intros Hg Hr.
  assert (disabled = isLoading (session st es)
          ∧ loader = isLoading (session st es)) as [-> ->].
  { unfold renderContent in Hr.
    destruct (view (session st es)); try done. by injection Hr as _ <- _ <- _. }
  rewrite <- drive_session.
  destruct (drive_gated (startup st) 0 es) as [[Hl Hn] | [Hl Hn]];
    [right; by rewrite startup_keeps_rest | exact Hg | |];
    rewrite Hl, Hn; split; split; try done; lia.
Qed.

Lemma loader_while_in_flight_witness :
  let es := [TopicChanged (js "tea"); GenerateClicked] in
  gated (startup (storage_of 1)) 0 es
  ∧ renderContent (session (storage_of 1) es) =
      MainPage (js "tea", js "500", js "English", js "Professional")
        true None true None
  ∧ (drive (startup (storage_of 1)) 0 es).2 = 1.
Proof.
  intros es.
  assert (gated (startup (storage_of 1)) 0 es) as Hg.
  { vm_compute. repeat split. }
  split; [exact Hg |]. split; [reflexivity |].
  exact (proj1 (proj1 (loader_while_in_flight (storage_of 1) es _ _ _ _ _
                         Hg eq_refl)) eq_refl).
Defined.

(** ** The cap after an oversized load *)

Lemma steps_keep_cap s es :
  length (history s) ≤ 50 → length (history (foldl step s es)) ≤ 50.
Proof.
  revert s. induction es as [|e es IH]; intros s H; [done |].
  simpl. by apply IH, step_keeps_cap.
Qed.

(** X15: whatever was loaded at startup, once a generation is fulfilled or a
    clearing is confirmed the history has at most 50 entries, and it keeps at
    most 50 for the rest of the session. *)
Theorem cap_holds_after_generation st es1 e es2 :
  (e = ClearClicked true
   ∨ ∃ env articleData, e = GenerateSettled env ∧ outcome env = Fulfilled articleData) →
  length (history (session st (es1 ++ e :: es2))) ≤ 50.
Proof.
  intros He. unfold session. rewrite foldl_app. simpl.
  apply steps_keep_cap. rewrite history_step.
  destruct He as [-> | (env & d & -> & ->)]; [simpl; lia |].
  apply insert_length_le.
Qed.

Lemma cap_holds_after_generation_witness :
  let env := mkGenEnv (Fulfilled sample_data) 9 (js "1970-01-01T00:00:00.009Z") in
  length (history (startup (storage_of 60))) = 60
  ∧ length (history (session (storage_of 60)
      [Navigated VHistory; GenerateSettled env; ArticleDeleted (js "9")])) ≤ 50.
Proof.
  intros env. split; [reflexivity |].
  apply (cap_holds_after_generation (storage_of 60) [Navigated VHistory]
           (GenerateSettled env) [ArticleDeleted (js "9")]).
  right. by exists env, sample_data.
Defined.
